(** * Moving Cost Estimator (2026): the pricing computation of [App.tsx]

    The pricing logic lives in the body of the [App] component
    (src/App.tsx, lines 27-51): from the form state [values : MovingInput] it
    derives the numbers that are rendered.  This file embeds that computation
    and states the properties of the cost breakdown over it.

    Number model.  The code computes on JavaScript numbers, IEEE 754
    binary64 floats.  Module [F64] replays lines 27-51 on primitive binary64
    floats: it is the embedding of the code's arithmetic.  Module [App] is
    the same computation with exact numbers, a rational ([Q]) for a price
    factor and an integer ([Z]) for what [Math.round], integer literals and
    their sums give.  The two coincide for every distance from -3000 to 3000
    ([f64_estimate_exact]); they differ for large distances, where a
    binary64 product or sum is rounded (from about 6.0e15 miles on for line
    40, from 2^53 on for line 47).  Properties that depend on exact sums or
    products are therefore stated on [F64], within the checked range, and
    the large inputs where they fail are given.  The [distance] field is
    only ever written by [parseInt(e.target.value) || 0] (line 73) or by the
    initial state [50] (line 24), so it is an integer. *)

From Stdlib Require Import Ascii String DecimalString DecimalPos DecimalN DecimalZ.
From Stdlib Require Import ZArith QArith Qround Bool Lia List Floats Uint63.
Import ListNotations.

Local Open Scope Z_scope.

(** ** Data model (lines 3-12) *)

(** [homeSize: 'studio' | '1br' | '2br' | '3br'] *)
Inductive HomeSize : Set :=
| studio
| br1
| br2
| br3.

(** [moveType: 'local' | 'longDistance'] *)
Inductive MoveType : Set :=
| local
| longDistance.

Record MovingInput : Set := mkMovingInput {
  distance : Z;
  homeSize : HomeSize;
  moveType : MoveType;
  packingServices : bool;
  storageNeeded : bool
}.

(** [SIZE_MULTIPLIER = { studio: 1.0, '1br': 1.4, '2br': 1.9, '3br': 2.6 }] *)
Definition SIZE_MULTIPLIER (h : HomeSize) : Q :=
  match h with
  | studio => 1.0
  | br1 => 1.4
  | br2 => 1.9
  | br3 => 2.6
  end%Q.

(** [Math.round]: the integer closest to [x]; of two equally close integers,
    the one towards plus infinity. *)
Definition Math_round (x : Q) : Z :=
  let f := Qfloor x in
  if Qle_bool (1 # 2) (x - inject_Z f) then f + 1 else f.

(** ** The computation of [App] (lines 27-51), with exact numbers

    Products and sums are exact here; the code's own binary64 arithmetic is
    in module [F64] below and agrees with these definitions for distances
    from -3000 to 3000. *)

Module App.

Section Body.

Variable values : MovingInput.

(* line 27 *)
Definition sizeMultiplier : Q := SIZE_MULTIPLIER (homeSize values).

(* lines 30-41: the branch assigns both [baseCost] and [distanceCost] *)
Definition baseCost_distanceCost : Q * Z :=
  match moveType values with
  | local =>
      (400 * sizeMultiplier,
       Math_round (inject_Z (distance values) * 2))%Q
  | longDistance =>
      (1200 * sizeMultiplier,
       Math_round (inject_Z (distance values) * 0.75))%Q
  end.

Definition baseCost : Q := fst baseCost_distanceCost.
Definition distanceCost : Z := snd baseCost_distanceCost.

(* lines 43-45 *)
Definition sizeCost : Z := Math_round baseCost.
Definition packingCost : Z :=
  if packingServices values then Math_round (300 * sizeMultiplier)%Q else 0.
Definition storageCost : Z :=
  if storageNeeded values then 250 else 0.

(* lines 47-49 *)
Definition totalEstimate : Z := sizeCost + distanceCost + packingCost + storageCost.
Definition lowEstimate : Z := Math_round (inject_Z totalEstimate * 0.8)%Q.
Definition highEstimate : Z := Math_round (inject_Z totalEstimate * 1.3)%Q.

(* line 51 *)
Definition serviceAddons : Z := packingCost + storageCost.

End Body.

End App.

(** ** The rendered breakdown

    What the component displays (lines 53-59, 109, 116, 120): the rounded base
    cost [sizeCost] under the label "Base Moving Cost", then the distance,
    packing and storage costs, the total, the range and the add-ons. *)

Record CostBreakdown : Set := mkCostBreakdown {
  bd_baseCost : Z;
  bd_distanceCost : Z;
  bd_packingCost : Z;
  bd_storageCost : Z;
  bd_total : Z;
  bd_low : Z;
  bd_high : Z;
  bd_serviceAddons : Z
}.

Definition estimate (values : MovingInput) : CostBreakdown :=
  {| bd_baseCost := App.sizeCost values;
     bd_distanceCost := App.distanceCost values;
     bd_packingCost := App.packingCost values;
     bd_storageCost := App.storageCost values;
     bd_total := App.totalEstimate values;
     bd_low := App.lowEstimate values;
     bd_high := App.highEstimate values;
     bd_serviceAddons := App.serviceAddons values |}.

(** ** Form updates (line 25)

    [handleChange(field, value)] replaces one field of the previous state:
    [setValues(prev => ({ ...prev, [field]: value }))]. *)

Inductive FieldValue : Set :=
| set_distance (value : Z)
| set_homeSize (value : HomeSize)
| set_moveType (value : MoveType)
| set_packingServices (value : bool)
| set_storageNeeded (value : bool).

Definition handleChange (fv : FieldValue) (prev : MovingInput) : MovingInput :=
  match fv with
  | set_distance value =>
      mkMovingInput value (homeSize prev) (moveType prev)
                    (packingServices prev) (storageNeeded prev)
  | set_homeSize value =>
      mkMovingInput (distance prev) value (moveType prev)
                    (packingServices prev) (storageNeeded prev)
  | set_moveType value =>
      mkMovingInput (distance prev) (homeSize prev) value
                    (packingServices prev) (storageNeeded prev)
  | set_packingServices value =>
      mkMovingInput (distance prev) (homeSize prev) (moveType prev)
                    value (storageNeeded prev)
  | set_storageNeeded value =>
      mkMovingInput (distance prev) (homeSize prev) (moveType prev)
                    (packingServices prev) value
  end.

(** Two form states that differ at most in the named field. *)
Definition same_but_distance (v1 v2 : MovingInput) : Prop :=
  homeSize v1 = homeSize v2 /\ moveType v1 = moveType v2 /\
  packingServices v1 = packingServices v2 /\ storageNeeded v1 = storageNeeded v2.

Definition same_but_homeSize (v1 v2 : MovingInput) : Prop :=
  distance v1 = distance v2 /\ moveType v1 = moveType v2 /\
  packingServices v1 = packingServices v2 /\ storageNeeded v1 = storageNeeded v2.

Definition same_but_addons (v1 v2 : MovingInput) : Prop :=
  distance v1 = distance v2 /\ homeSize v1 = homeSize v2 /\
  moveType v1 = moveType v2.

(** Every monetary field of a breakdown is at least zero. *)
Definition all_nonnegative (b : CostBreakdown) : Prop :=
  0 <= bd_baseCost b /\ 0 <= bd_distanceCost b /\
  0 <= bd_packingCost b /\ 0 <= bd_storageCost b /\
  0 <= bd_total b /\ 0 <= bd_low b /\ 0 <= bd_high b /\
  0 <= bd_serviceAddons b.

(** ** The reference algorithm of the specification

    Written from the specification's seven steps, with its [round] read as
    round-half-up; compared with [estimate] below. *)

Module Reference.

Definition round (x : Q) : Z := Qfloor (x + (1 # 2)).

Definition estimate (input : MovingInput) : CostBreakdown :=
  let m := SIZE_MULTIPLIER (homeSize input) in
  let d := inject_Z (distance input) in
  let baseCost :=
    match moveType input with
    | local => round (400 * m)
    | longDistance => round (1200 * m)
    end in
  let distanceCost :=
    match moveType input with
    | local => round (d * 2)
    | longDistance => round (d * 0.75)
    end in
  let packingCost := if packingServices input then round (300 * m) else 0 in
  let storageCost := if storageNeeded input then 250 else 0 in
  let total := baseCost + distanceCost + packingCost + storageCost in
  {| bd_baseCost := baseCost;
     bd_distanceCost := distanceCost;
     bd_packingCost := packingCost;
     bd_storageCost := storageCost;
     bd_total := total;
     bd_low := round (inject_Z total * 0.8);
     bd_high := round (inject_Z total * 1.3);
     bd_serviceAddons := packingCost + storageCost |}.

End Reference.

(** ** Closed forms

    The integers that lines 33-45 produce, as tables and integer divisions;
    the lemmas below show that the computation yields them. *)

Definition sizeCost_Z (m : MoveType) (h : HomeSize) : Z :=
  match m, h with
  | local, studio => 400
  | local, br1 => 560
  | local, br2 => 760
  | local, br3 => 1040
  | longDistance, studio => 1200
  | longDistance, br1 => 1680
  | longDistance, br2 => 2280
  | longDistance, br3 => 3120
  end.

Definition distanceCost_Z (m : MoveType) (d : Z) : Z :=
  match m with
  | local => 2 * d
  | longDistance => (3 * d + 2) / 4
  end.

Definition packingCost_Z (h : HomeSize) (p : bool) : Z :=
  if p then
    match h with
    | studio => 300
    | br1 => 420
    | br2 => 570
    | br3 => 780
    end
  else 0.

Definition storageCost_Z (s : bool) : Z := if s then 250 else 0.

Definition totalEstimate_Z (v : MovingInput) : Z :=
  sizeCost_Z (moveType v) (homeSize v) +
  distanceCost_Z (moveType v) (distance v) +
  packingCost_Z (homeSize v) (packingServices v) +
  storageCost_Z (storageNeeded v).

Definition breakdown_Z (v : MovingInput) : CostBreakdown :=
  let t := totalEstimate_Z v in
  {| bd_baseCost := sizeCost_Z (moveType v) (homeSize v);
     bd_distanceCost := distanceCost_Z (moveType v) (distance v);
     bd_packingCost := packingCost_Z (homeSize v) (packingServices v);
     bd_storageCost := storageCost_Z (storageNeeded v);
     bd_total := t;
     bd_low := (8 * t + 5) / 10;
     bd_high := (13 * t + 5) / 10;
     bd_serviceAddons :=
       packingCost_Z (homeSize v) (packingServices v) +
       storageCost_Z (storageNeeded v) |}.

(** ** The same computation on IEEE 754 binary64 numbers

    A JavaScript [number] is a binary64 float.  This module replays lines
    27-51 on primitive floats, so that the exact model above can be compared
    with what the arithmetic of the language produces. *)

Module F64.

#[local] Set Warnings "-inexact-float".

(** The float of an integer literal or of a [parseInt] result; exact for
    magnitudes up to [2^53]. *)
Definition of_Z (z : Z) : float :=
  match z with
  | Z0 => 0%float
  | Zpos _ => PrimFloat.of_uint63 (Uint63.of_Z z)
  | Zneg p => PrimFloat.opp (PrimFloat.of_uint63 (Uint63.of_Z (Zpos p)))
  end.

Definition signed (s : bool) (m : positive) : Z :=
  if s then Z.neg m else Z.pos m.

(** [Math.round] of the exact model, on the exact value of a float. *)
Definition round_exact (x : Q) : Z := Math_round x.

(** The exact value of a finite float [(-1)^s * m * 2^e]. *)
Definition to_Q (x : float) : option Q :=
  match Prim2SF x with
  | S754_zero _ => Some 0%Q
  | S754_finite s m e =>
      Some (if e <? 0 then signed s m # Z.to_pos (2 ^ (- e))
            else inject_Z (signed s m * 2 ^ e))
  | _ => None
  end.

(** The integer a float denotes, when it denotes one. *)
Definition to_Z (x : float) : option Z :=
  match to_Q x with
  | Some q => if Qeq_bool (inject_Z (Qfloor q)) q then Some (Qfloor q) else None
  | None => None
  end.

(** [Math.round] on floats: exact on the value of its argument; zeros,
    infinities, NaN and floats without fractional bits are returned as they
    are, and a negative argument that rounds to zero gives [-0]. *)
Definition Math_round (x : float) : float :=
  match Prim2SF x with
  | S754_finite s m e =>
      if e <? 0 then
        let z := round_exact (signed s m # Z.to_pos (2 ^ (- e))) in
        if (z =? 0) && s then (-0)%float else of_Z z
      else x
  | _ => x
  end.

Definition SIZE_MULTIPLIER (h : HomeSize) : float :=
  match h with
  | studio => 1.0
  | br1 => 1.4
  | br2 => 1.9
  | br3 => 2.6
  end%float.

Section Body.

Variable values : MovingInput.

Local Open Scope float_scope.

Definition sizeMultiplier : float := SIZE_MULTIPLIER (homeSize values).

Definition baseCost_distanceCost : float * float :=
  match moveType values with
  | local =>
      (400 * sizeMultiplier, Math_round (of_Z (distance values) * 2))
  | longDistance =>
      (1200 * sizeMultiplier, Math_round (of_Z (distance values) * 0.75))
  end.

Definition baseCost : float := fst baseCost_distanceCost.
Definition distanceCost : float := snd baseCost_distanceCost.

Definition sizeCost : float := Math_round baseCost.
Definition packingCost : float :=
  if packingServices values then Math_round (300 * sizeMultiplier) else 0.
Definition storageCost : float :=
  if storageNeeded values then 250 else 0.

Definition totalEstimate : float :=
  sizeCost + distanceCost + packingCost + storageCost.
Definition lowEstimate : float := Math_round (totalEstimate * 0.8).
Definition highEstimate : float := Math_round (totalEstimate * 1.3).

Definition serviceAddons : float := packingCost + storageCost.

End Body.

(** The rendered breakdown, when every displayed number is an integer. *)
Definition estimate (values : MovingInput) : option CostBreakdown :=
  match to_Z (sizeCost values), to_Z (distanceCost values),
        to_Z (packingCost values), to_Z (storageCost values),
        to_Z (totalEstimate values), to_Z (lowEstimate values),
        to_Z (highEstimate values), to_Z (serviceAddons values) with
  | Some b, Some d, Some p, Some s, Some t, Some l, Some h, Some a =>
      Some (mkCostBreakdown b d p s t l h a)
  | _, _, _, _, _, _, _, _ => None
  end.

End F64.

(** ** Finite checks of the binary64 computation *)

#[local] Set Warnings "-inexact-float".

Definition all_HomeSize : list HomeSize := [studio; br1; br2; br3].
Definition all_MoveType : list MoveType := [local; longDistance].
Definition all_bool : list bool := [false; true].

(** The integers [lo, lo + 1, ..., lo + n - 1]. *)
Fixpoint Zrange (lo : Z) (n : nat) : list Z :=
  match n with
  | O => []
  | S n' => lo :: Zrange (lo + 1) n'
  end.

(** The integers from [lo] to [hi], both included. *)
Definition Zinterval (lo hi : Z) : list Z := Zrange lo (Z.to_nat (hi + 1 - lo)).

(** The float [x] is the float of the integer [z]. *)
Definition f64_is (x : float) (z : Z) : bool :=
  PrimFloat.Leibniz.eqb x (F64.of_Z z).

(** Lines 36 and 40 at distance [d]. *)
Definition check_distanceCost (d : Z) : bool :=
  f64_is (F64.Math_round (F64.of_Z d * 2)) (distanceCost_Z local d) &&
  f64_is (F64.Math_round (F64.of_Z d * 0.75)) (distanceCost_Z longDistance d).

(** Lines 48 and 49 at total [t]. *)
Definition check_range (t : Z) : bool :=
  f64_is (F64.Math_round (F64.of_Z t * 0.8)) ((8 * t + 5) / 10) &&
  f64_is (F64.Math_round (F64.of_Z t * 1.3)) ((13 * t + 5) / 10).

(** Line 47 at distance [d], for every choice of the other fields: the float
    sum of the four costs is the float of their integer sum. *)
Definition check_sum (d : Z) : bool :=
  forallb (fun m =>
    let dist := distanceCost_Z m d in
    forallb (fun h =>
      let size := sizeCost_Z m h in
      let size_dist := (F64.of_Z size + F64.of_Z dist)%float in
      forallb (fun p =>
        let pack := packingCost_Z h p in
        let size_dist_pack := (size_dist + F64.of_Z pack)%float in
        forallb (fun s =>
          let stor := storageCost_Z s in
          f64_is (size_dist_pack + F64.of_Z stor)%float
                 (size + dist + pack + stor))
        all_bool)
      all_bool)
    all_HomeSize)
  all_MoveType.

(** The float of [z] denotes [z]. *)
Definition check_to_Z (z : Z) : bool :=
  match F64.to_Z (F64.of_Z z) with
  | Some z' => z' =? z
  | None => false
  end.

(** ** The keys of the form state ([keyof MovingInput]) *)

Inductive Field : Set :=
| key_distance
| key_homeSize
| key_moveType
| key_packingServices
| key_storageNeeded.

(** The key that an update writes. *)
Definition field_of (fv : FieldValue) : Field :=
  match fv with
  | set_distance _ => key_distance
  | set_homeSize _ => key_homeSize
  | set_moveType _ => key_moveType
  | set_packingServices _ => key_packingServices
  | set_storageNeeded _ => key_storageNeeded
  end.

(** ** The distance field (line 73) *)

(** A JavaScript string: its UTF-16 code units. *)
Definition jsstring : Set := list N.

(** The code units of an ASCII text. *)
Definition of_string (s : string) : jsstring :=
  map N_of_ascii (list_ascii_of_string s).

(** White space and line terminators, as [parseInt] skips them in front. *)
Definition is_white_space (c : N) : bool :=
  existsb (N.eqb c)
    [9; 10; 11; 12; 13; 32; 160; 5760; 8192; 8193; 8194; 8195; 8196; 8197;
     8198; 8199; 8200; 8201; 8202; 8232; 8233; 8239; 8287; 12288; 65279]%N.

(** The text without its leading white space. *)
Fixpoint trim_start (s : jsstring) : jsstring :=
  match s with
  | c :: r => if is_white_space c then trim_start r else s
  | [] => []
  end.

(** The value of a digit [0-9], [a-z] or [A-Z]. *)
Definition digit_value (c : N) : option Z :=
  if (48 <=? c)%N && (c <=? 57)%N then Some (Z.of_N c - 48)
  else if (97 <=? c)%N && (c <=? 122)%N then Some (Z.of_N c - 87)
  else if (65 <=? c)%N && (c <=? 90)%N then Some (Z.of_N c - 55)
  else None.

(** The digits of radix [R] in front of [s]. *)
Fixpoint leading_digits (R : Z) (s : jsstring) : list Z :=
  match s with
  | c :: r =>
      match digit_value c with
      | Some v => if v <? R then v :: leading_digits R r else []
      | None => []
      end
  | [] => []
  end.

(** The integer written by digit values [ds] in radix [R]. *)
Definition digits_value (R : Z) (ds : list Z) : Z :=
  fold_left (fun acc v => acc * R + v) ds 0.

(** A leading ["-"] or ["+"] and the rest. *)
Definition strip_sign (s : jsstring) : Z * jsstring :=
  match s with
  | c :: r =>
      if (c =? 45)%N then (-1, r)
      else if (c =? 43)%N then (1, r)
      else (1, s)
  | [] => (1, s)
  end.

(** The radix: 16 after a leading ["0x"] or ["0X"], which is removed, and 10
    otherwise. *)
Definition strip_prefix (s : jsstring) : Z * jsstring :=
  match s with
  | c :: x :: r =>
      if (c =? 48)%N && ((x =? 120)%N || (x =? 88)%N) then (16, r) else (10, s)
  | _ => (10, s)
  end.

(** [parseInt(string)] without a radix: white space in front is skipped, one
    sign is read, the digits of the radix that follow are the value; [None]
    is NaN (no digit).  The value is the exact integer of the digits: the
    builtin returns the nearest binary64 number, which is that integer for
    magnitudes below [2^53]. *)
Definition parseInt (text : jsstring) : option Z :=
  let '(sign, s) := strip_sign (trim_start text) in
  let '(R, s) := strip_prefix s in
  match leading_digits R s with
  | [] => None
  | ds => Some (sign * digits_value R ds)
  end.

(** [x || 0] on a number: NaN and zero give 0. *)
Definition or_0 (x : option Z) : Z :=
  match x with
  | Some n => n
  | None => 0
  end.

(** [String(n)] for an integer: its decimal digits after a minus sign for a
    negative one.  This is the builtin's text for magnitudes below [1e21],
    so for every safe integer (below [2^53] in magnitude). *)
Definition Number_toString (n : Z) : string :=
  NilZero.string_of_int (Z.to_int n).

(** [value={values.distance || ''}] *)
Definition distance_value (values : MovingInput) : string :=
  if distance values =? 0 then EmptyString else Number_toString (distance values).

(** [onChange={(e) => handleChange('distance', parseInt(e.target.value) || 0)}] *)
Definition distance_onChange (text : jsstring) (prev : MovingInput) : MovingInput :=
  handleChange (set_distance (or_0 (parseInt text))) prev.

(** A character from [0] to [9]. *)
Definition is_decimal_digit (c : N) : bool := (48 <=? c)%N && (c <=? 57)%N.

(** Text that ends a decimal numeral written in front of it: empty, or
    starting with a character that is neither a digit nor [x] or [X]. *)
Definition ends_numeral (rest : jsstring) : Prop :=
  match rest with
  | [] => True
  | c :: _ => is_decimal_digit c = false /\ c <> 120%N /\ c <> 88%N
  end.

(** Text with no decimal digit in front, after white space and one sign. *)
Definition no_leading_digit (text : jsstring) : Prop :=
  match snd (strip_sign (trim_start text)) with
  | [] => True
  | c :: _ => is_decimal_digit c = false
  end.

(** ** Rendering (lines 21, 53-59) *)

(** Commas between groups of three, on the digits in reverse order; [k] is
    the number of digits left in the current group. *)
Fixpoint commas (k : nat) (rev_digits : list ascii) : list ascii :=
  match rev_digits with
  | [] => []
  | x :: r =>
      match k with
      | O => ","%char :: x :: commas 2 r
      | S k' => x :: commas k' r
      end
  end.

(** [Intl.NumberFormat('en-US', { style: 'currency', currency: 'USD',
    maximumFractionDigits: 0 }).format(n)] on an integer: a minus sign for a
    negative amount, the dollar sign, the digits in groups of three. *)
Definition fmt (n : Z) : string :=
  let digits := list_ascii_of_string (NilZero.string_of_uint (N.to_uint (Z.abs_N n))) in
  let grouped := string_of_list_ascii (rev (commas 3 (rev digits))) in
  let sign := if n <? 0 then "-"%string else ""%string in
  (sign ++ "$" ++ grouped)%string.

(** A row of the breakdown table: [{ label, value, isTotal }]. *)
Record Row : Set := mkRow {
  label : string;
  value : string;
  isTotal : bool
}.

(** [breakdownData] (lines 53-59) *)
Definition breakdownData (values : MovingInput) : list Row :=
  [ mkRow "Base Moving Cost"%string (fmt (App.sizeCost values)) false;
    mkRow "Distance Cost"%string (fmt (App.distanceCost values)) false;
    mkRow "Packing Services"%string
          (if 0 <? App.packingCost values then fmt (App.packingCost values)
           else "$0"%string) false;
    mkRow "Storage (1 month)"%string
          (if 0 <? App.storageCost values then fmt (App.storageCost values)
           else "$0"%string) false;
    mkRow "Estimated Total"%string (fmt (App.totalEstimate values)) true ].

(** A character other than the group separator. *)
Definition not_comma (a : ascii) : bool := negb (Ascii.eqb a ",").

(** The digit values of a decimal numeral. *)
Fixpoint uint_values (u : Decimal.uint) : list Z :=
  match u with
  | Decimal.Nil => []
  | Decimal.D0 l => 0 :: uint_values l
  | Decimal.D1 l => 1 :: uint_values l
  | Decimal.D2 l => 2 :: uint_values l
  | Decimal.D3 l => 3 :: uint_values l
  | Decimal.D4 l => 4 :: uint_values l
  | Decimal.D5 l => 5 :: uint_values l
  | Decimal.D6 l => 6 :: uint_values l
  | Decimal.D7 l => 7 :: uint_values l
  | Decimal.D8 l => 8 :: uint_values l
  | Decimal.D9 l => 9 :: uint_values l
  end.

(** ** [Math.round] on rationals *)

(** Linear arithmetic with divisions by constants. *)
Ltac div_lia := Z.div_mod_to_equations; lia.

(** On a fraction [n # d], [Math.round] is one integer division. *)
Lemma Math_round_Qmake (n : Z) (d : positive) :
  Math_round (n # d) = (2 * n + Z.pos d) / (2 * Z.pos d).
Proof.
  unfold Math_round, Qfloor.
  pose proof (Z.div_mod n (Z.pos d) ltac:(lia)) as Hdm.
  pose proof (Z.mod_pos_bound n (Z.pos d) ltac:(lia)) as Hr.
  set (q := n / Z.pos d) in *. set (r := n mod Z.pos d) in *.
  destruct (Qle_bool (1 # 2) ((n # d) - inject_Z q)) eqn:E.
  - apply Qle_bool_iff in E. unfold Qle in E. cbn in E.
    rewrite Pos.mul_1_r in E.
    apply Z.div_unique with (r := 2 * r - Z.pos d); nia.
  - assert (~ (1 # 2 <= (n # d) - inject_Z q)%Q) as E'
      by (rewrite <- Qle_bool_iff; congruence).
    unfold Qle in E'. cbn in E'. rewrite Pos.mul_1_r in E'.
    apply Z.div_unique with (r := 2 * r + Z.pos d); nia.
Qed.

Lemma Math_round_floor (x : Q) : Math_round x = Qfloor (x + (1 # 2)).
Proof.
  destruct x as [n d]. rewrite Math_round_Qmake.
  unfold Qplus, Qfloor. cbn [Qnum Qden].
  f_equal; lia.
Qed.

Lemma Math_round_le (x y : Q) : (x <= y)%Q -> Math_round x <= Math_round y.
Proof.
  intros H. rewrite !Math_round_floor. apply Qfloor_resp_le.
  apply Qplus_le_l. exact H.
Qed.

Lemma Math_round_inject_Z (z : Z) : Math_round (inject_Z z) = z.
Proof.
  unfold inject_Z. rewrite Math_round_Qmake.
  div_lia.
Qed.

(** [Math.round (t * (a / b))] for an integer [t]. *)
Lemma Math_round_scale (t a : Z) (b : positive) :
  Math_round (inject_Z t * (a # b)) = (2 * (t * a) + Z.pos b) / (2 * Z.pos b).
Proof.
  unfold Qmult, inject_Z. cbn [Qnum Qden].
  rewrite Pos.mul_1_l. apply Math_round_Qmake.
Qed.

Lemma Math_round_times_2 (d : Z) : Math_round (inject_Z d * 2) = 2 * d.
Proof.
  change 2%Q with (2 # 1). rewrite Math_round_scale.
  div_lia.
Qed.

Lemma Math_round_times_075 (d : Z) :
  Math_round (inject_Z d * 0.75) = (3 * d + 2) / 4.
Proof.
  change 0.75%Q with (75 # 100). rewrite Math_round_scale.
  div_lia.
Qed.

Lemma Math_round_times_08 (t : Z) :
  Math_round (inject_Z t * 0.8) = (8 * t + 5) / 10.
Proof.
  change 0.8%Q with (8 # 10). rewrite Math_round_scale.
  div_lia.
Qed.

Lemma Math_round_times_13 (t : Z) :
  Math_round (inject_Z t * 1.3) = (13 * t + 5) / 10.
Proof.
  change 1.3%Q with (13 # 10). rewrite Math_round_scale.
  div_lia.
Qed.


(** ** Closed forms of the computed numbers *)

Lemma sizeCost_table (v : MovingInput) :
  App.sizeCost v = sizeCost_Z (moveType v) (homeSize v).
Proof.
  destruct v as [d h m p s]. destruct h, m; reflexivity.
Qed.

Lemma packingCost_table (v : MovingInput) :
  App.packingCost v = packingCost_Z (homeSize v) (packingServices v).
Proof.
  destruct v as [d h m p s]. destruct h, p; reflexivity.
Qed.

Lemma storageCost_table (v : MovingInput) :
  App.storageCost v = storageCost_Z (storageNeeded v).
Proof. reflexivity. Qed.

Lemma distanceCost_closed (v : MovingInput) :
  App.distanceCost v = distanceCost_Z (moveType v) (distance v).
Proof.
  destruct v as [d h m p s]. unfold App.distanceCost, App.baseCost_distanceCost.
  cbn [moveType distance]. destruct m; cbn [snd distanceCost_Z].
  - apply Math_round_times_2.
  - apply Math_round_times_075.
Qed.

Lemma totalEstimate_closed (v : MovingInput) :
  App.totalEstimate v = totalEstimate_Z v.
Proof.
  unfold App.totalEstimate, totalEstimate_Z.
  rewrite sizeCost_table, distanceCost_closed, packingCost_table,
    storageCost_table.
  reflexivity.
Qed.

Lemma lowEstimate_closed (v : MovingInput) :
  App.lowEstimate v = (8 * App.totalEstimate v + 5) / 10.
Proof. apply Math_round_times_08. Qed.

Lemma highEstimate_closed (v : MovingInput) :
  App.highEstimate v = (13 * App.totalEstimate v + 5) / 10.
Proof. apply Math_round_times_13. Qed.

Lemma sizeCost_Z_bounds (m : MoveType) (h : HomeSize) :
  400 <= sizeCost_Z m h <= 3120.
Proof. destruct m, h; cbn; lia. Qed.

Lemma packingCost_Z_bounds (h : HomeSize) (p : bool) :
  0 <= packingCost_Z h p <= 780.
Proof. destruct h, p; cbn; lia. Qed.

Lemma storageCost_Z_bounds (s : bool) : 0 <= storageCost_Z s <= 250.
Proof. destruct s; cbn; lia. Qed.

Lemma distanceCost_Z_sign (m : MoveType) (d : Z) :
  0 <= distanceCost_Z m d <-> 0 <= d.
Proof.
  destruct m; cbn [distanceCost_Z].
  - lia.
  - div_lia.
Qed.

Lemma distanceCost_Z_mono (m : MoveType) (d1 d2 : Z) :
  d1 <= d2 -> distanceCost_Z m d1 <= distanceCost_Z m d2.
Proof.
  intros Hd. destruct m; cbn [distanceCost_Z].
  - lia.
  - div_lia.
Qed.

Lemma sizeCost_pos (v : MovingInput) : 400 <= App.sizeCost v.
Proof. rewrite sizeCost_table. apply sizeCost_Z_bounds. Qed.

Lemma packingCost_nonneg (v : MovingInput) : 0 <= App.packingCost v.
Proof. rewrite packingCost_table. apply packingCost_Z_bounds. Qed.

Lemma storageCost_nonneg (v : MovingInput) : 0 <= App.storageCost v.
Proof. rewrite storageCost_table. apply storageCost_Z_bounds. Qed.

Lemma distanceCost_sign (v : MovingInput) :
  0 <= App.distanceCost v <-> 0 <= distance v.
Proof. rewrite distanceCost_closed. apply distanceCost_Z_sign. Qed.

Lemma distanceCost_mono (v1 v2 : MovingInput) :
  moveType v1 = moveType v2 -> distance v1 <= distance v2 ->
  App.distanceCost v1 <= App.distanceCost v2.
Proof.
  intros Hm Hd. rewrite !distanceCost_closed, Hm.
  apply distanceCost_Z_mono. exact Hd.
Qed.

Lemma SIZE_MULTIPLIER_pos (h : HomeSize) : (0 < SIZE_MULTIPLIER h)%Q.
Proof. destruct h; reflexivity. Qed.

(** ** Properties of the cost breakdown *)

(** Exact numbers: the computation of [App] is the reference algorithm of
    the specification, each rounding applied to its intermediate value
    before the summation. *)
Lemma exact_is_reference (values : MovingInput) :
  estimate values = Reference.estimate values.
Proof.
  destruct values as [d h m p s].
  unfold estimate, Reference.estimate, Reference.round.
  unfold App.lowEstimate, App.highEstimate, App.serviceAddons,
    App.totalEstimate, App.sizeCost, App.packingCost, App.storageCost,
    App.distanceCost, App.baseCost, App.baseCost_distanceCost,
    App.sizeMultiplier.
  cbn [distance homeSize moveType packingServices storageNeeded].
  rewrite <- !Math_round_floor.
  destruct m; reflexivity.
Qed.

(** C2. For distance 1000, a 3+ bedroom home, a long-distance move, with
    packing and storage, the breakdown is baseCost 3120, distanceCost 750,
    packingCost 780, storageCost 250, total 4900, low 3920, high 6370 and
    serviceAddons 1030. *)
Theorem scenario_B :
  estimate (mkMovingInput 1000 br3 longDistance true true) =
  mkCostBreakdown 3120 750 780 250 4900 3920 6370 1030.
Proof. vm_compute. reflexivity. Qed.

(** The other two scenarios of the specification. *)
Example scenario_A :
  estimate (mkMovingInput 50 br2 local false false) =
  mkCostBreakdown 760 100 0 0 860 688 1118 0.
Proof. vm_compute. reflexivity. Qed.

Example scenario_C :
  bd_total (estimate (mkMovingInput 0 studio local false false)) = 400 /\
  bd_distanceCost (estimate (mkMovingInput 0 studio local false false)) = 0.
Proof. split; vm_compute; reflexivity. Qed.

(** Exact numbers: the total is the sum of the base, distance, packing and
    storage costs. *)
Lemma exact_total_is_sum (values : MovingInput) :
  bd_total (estimate values) =
  bd_baseCost (estimate values) + bd_distanceCost (estimate values) +
  bd_packingCost (estimate values) + bd_storageCost (estimate values).
Proof. reflexivity. Qed.

(** C4. For every valid input (distance between 1 and 3000), low is
    round(total * 0.8), high is round(total * 1.3), and
    low <= total <= high. *)
Theorem range_brackets_total (values : MovingInput) :
  1 <= distance values <= 3000 ->
  bd_low (estimate values) =
    Reference.round (inject_Z (bd_total (estimate values)) * 0.8) /\
  bd_high (estimate values) =
    Reference.round (inject_Z (bd_total (estimate values)) * 1.3) /\
  bd_low (estimate values) <= bd_total (estimate values) /\
  bd_total (estimate values) <= bd_high (estimate values).
Proof.
  intros Hd. cbn [estimate bd_low bd_high bd_total].
  unfold Reference.round. rewrite <- !Math_round_floor.
  split; [reflexivity | split; [reflexivity |]].
  rewrite lowEstimate_closed, highEstimate_closed.
  assert (0 <= App.totalEstimate values) as Ht.
  { unfold App.totalEstimate.
    pose proof (sizeCost_pos values). pose proof (packingCost_nonneg values).
    pose proof (storageCost_nonneg values).
    pose proof (proj2 (distanceCost_sign values) ltac:(lia)). lia. }
  split; div_lia.
Qed.

Lemma range_brackets_total_witness :
  let v := mkMovingInput 50 br2 local false false in
  1 <= distance v <= 3000 /\
  bd_low (estimate v) = Reference.round (inject_Z (bd_total (estimate v)) * 0.8) /\
  bd_high (estimate v) = Reference.round (inject_Z (bd_total (estimate v)) * 1.3) /\
  bd_low (estimate v) <= bd_total (estimate v) /\
  bd_total (estimate v) <= bd_high (estimate v).
Proof.
  intros v. split; [cbn; lia |].
  apply (range_brackets_total v). cbn. lia.
Defined.

(** C5. For two inputs that agree on everything but the distance, a smaller
    or equal distance gives a smaller or equal distanceCost and a smaller or
    equal total. *)
Theorem distance_monotone (v1 v2 : MovingInput) :
  same_but_distance v1 v2 ->
  distance v1 <= distance v2 ->
  bd_distanceCost (estimate v1) <= bd_distanceCost (estimate v2) /\
  bd_total (estimate v1) <= bd_total (estimate v2).
Proof.
  intros (Hh & Hm & Hp & Hs) Hd.
  cbn [estimate bd_distanceCost bd_total].
  pose proof (distanceCost_mono v1 v2 Hm Hd) as Hdc.
  split; [exact Hdc |].
  unfold App.totalEstimate.
  rewrite !sizeCost_table, !packingCost_table, !storageCost_table.
  rewrite Hh, Hm, Hp, Hs. lia.
Qed.

Lemma distance_monotone_witness :
  bd_distanceCost (estimate (mkMovingInput 10 br1 longDistance true false)) <=
  bd_distanceCost (estimate (mkMovingInput 11 br1 longDistance true false)) /\
  bd_total (estimate (mkMovingInput 10 br1 longDistance true false)) <=
  bd_total (estimate (mkMovingInput 11 br1 longDistance true false)).
Proof.
  apply distance_monotone.
  - unfold same_but_distance. cbn. repeat split; reflexivity.
  - cbn. lia.
Defined.

(** Exact numbers: switching only packingServices on raises the total by
    round(300 * sizeMultiplier[homeSize]), a positive amount. *)
Lemma exact_packing_toggle (values : MovingInput) :
  packingServices values = false ->
  bd_total (estimate (handleChange (set_packingServices true) values)) =
    bd_total (estimate values) +
    Reference.round (300 * SIZE_MULTIPLIER (homeSize values)) /\
  0 < Reference.round (300 * SIZE_MULTIPLIER (homeSize values)).
Proof.
  destruct values as [d h m p s]. cbn [packingServices]. intros ->.
  cbn [estimate bd_total handleChange distance homeSize moveType
       packingServices storageNeeded].
  unfold App.totalEstimate.
  rewrite !sizeCost_table, !packingCost_table, !storageCost_table, !distanceCost_closed.
  cbn [distance homeSize moveType packingServices storageNeeded].
  unfold packingCost_Z.
  destruct h; vm_compute Reference.round; lia.
Qed.




(** The bound of the amended C7 is the exact one: a breakdown with all
    fields non-negative comes from a non-negative distance. *)
Lemma nonnegative_fields_only_if (values : MovingInput) :
  all_nonnegative (estimate values) -> 0 <= distance values.
Proof.
  intros (_ & H & _). apply distanceCost_sign. exact H.
Qed.

(** Exact numbers: with a negative distance the distanceCost is
    round(distance * 2) on a local move and round(distance * 0.75) on a
    long-distance move, and it is negative. *)
Lemma exact_negative_distance (values : MovingInput) :
  distance values < 0 ->
  bd_distanceCost (estimate values) =
    match moveType values with
    | local => Reference.round (inject_Z (distance values) * 2)
    | longDistance => Reference.round (inject_Z (distance values) * 0.75)
    end /\
  bd_distanceCost (estimate values) < 0.
Proof.
  intros Hd. cbn [estimate bd_distanceCost]. split.
  - unfold Reference.round. rewrite <- !Math_round_floor.
    unfold App.distanceCost, App.baseCost_distanceCost.
    destruct (moveType values); reflexivity.
  - rewrite distanceCost_closed.
    destruct (moveType values); cbn [distanceCost_Z].
    + lia.
    + div_lia.
Qed.

(** C9. Changing only packingServices or storageNeeded, or both, leaves
    baseCost and distanceCost as they were. *)
Theorem addons_frame (v1 v2 : MovingInput) :
  same_but_addons v1 v2 ->
  bd_baseCost (estimate v1) = bd_baseCost (estimate v2) /\
  bd_distanceCost (estimate v1) = bd_distanceCost (estimate v2).
Proof.
  intros (Hd & Hh & Hm).
  cbn [estimate bd_baseCost bd_distanceCost].
  rewrite !sizeCost_table, !distanceCost_closed, Hd, Hh, Hm.
  split; reflexivity.
Qed.

Lemma addons_frame_witness :
  bd_baseCost (estimate (mkMovingInput 120 br1 local false false)) =
  bd_baseCost (estimate (mkMovingInput 120 br1 local true true)) /\
  bd_distanceCost (estimate (mkMovingInput 120 br1 local false false)) =
  bd_distanceCost (estimate (mkMovingInput 120 br1 local true true)).
Proof.
  apply addons_frame. unfold same_but_addons. cbn. repeat split; reflexivity.
Defined.

(** The add-on toggles of the form are such changes. *)
Lemma handleChange_addons (values : MovingInput) (p s : bool) :
  same_but_addons values
    (handleChange (set_storageNeeded s)
       (handleChange (set_packingServices p) values)).
Proof. repeat split; reflexivity. Qed.

(** C10. For two inputs that agree on everything but the home size, a
    smaller or equal size multiplier gives a smaller or equal baseCost,
    packingCost and total. *)
Theorem homeSize_monotone (v1 v2 : MovingInput) :
  same_but_homeSize v1 v2 ->
  (SIZE_MULTIPLIER (homeSize v1) <= SIZE_MULTIPLIER (homeSize v2))%Q ->
  bd_baseCost (estimate v1) <= bd_baseCost (estimate v2) /\
  bd_packingCost (estimate v1) <= bd_packingCost (estimate v2) /\
  bd_total (estimate v1) <= bd_total (estimate v2).
Proof.
  intros (Hd & Hm & Hp & Hs) Hle.
  cbn [estimate bd_baseCost bd_packingCost bd_total].
  assert (App.sizeCost v1 <= App.sizeCost v2) as Hsize.
  { unfold App.sizeCost, App.baseCost, App.baseCost_distanceCost,
      App.sizeMultiplier.
    rewrite Hm. destruct (moveType v2); cbn [fst];
      apply Math_round_le; apply Qmult_le_l; [reflexivity | exact Hle
                                              | reflexivity | exact Hle]. }
  assert (App.packingCost v1 <= App.packingCost v2) as Hpack.
  { unfold App.packingCost, App.sizeMultiplier. rewrite Hp.
    destruct (packingServices v2); [| lia].
    apply Math_round_le. apply Qmult_le_l; [reflexivity | exact Hle]. }
  split; [exact Hsize | split; [exact Hpack |]].
  unfold App.totalEstimate.
  rewrite !storageCost_table, !distanceCost_closed, Hd, Hm, Hs. lia.
Qed.

Lemma homeSize_monotone_witness :
  bd_baseCost (estimate (mkMovingInput 200 br1 local true true)) <=
  bd_baseCost (estimate (mkMovingInput 200 br3 local true true)) /\
  bd_packingCost (estimate (mkMovingInput 200 br1 local true true)) <=
  bd_packingCost (estimate (mkMovingInput 200 br3 local true true)) /\
  bd_total (estimate (mkMovingInput 200 br1 local true true)) <=
  bd_total (estimate (mkMovingInput 200 br3 local true true)).
Proof.
  apply homeSize_monotone.
  - unfold same_but_homeSize. cbn. repeat split; reflexivity.
  - cbn. unfold Qle. cbn. lia.
Defined.


(** ** The exact model against binary64 arithmetic *)

Lemma Zrange_In (n : nat) (lo z : Z) :
  lo <= z < lo + Z.of_nat n -> In z (Zrange lo n).
Proof.
  revert lo. induction n as [| n IH]; intros lo Hz.
  - lia.
  - cbn [Zrange]. destruct (Z.eq_dec z lo) as [-> | Hne].
    + left. reflexivity.
    + right. apply IH. lia.
Qed.

Lemma forallb_Zinterval (P : Z -> bool) (lo hi : Z) :
  forallb P (Zinterval lo hi) = true ->
  forall z, lo <= z <= hi -> P z = true.
Proof.
  intros H z Hz. rewrite forallb_forall in H. apply H.
  unfold Zinterval. apply Zrange_In. lia.
Qed.

Lemma f64_is_eq (x : float) (z : Z) : f64_is x z = true -> x = F64.of_Z z.
Proof. unfold f64_is. apply FloatAxioms.Leibniz.eqb_spec. Qed.

Lemma In_all_HomeSize (h : HomeSize) : In h all_HomeSize.
Proof. destruct h; cbn; tauto. Qed.

Lemma In_all_MoveType (m : MoveType) : In m all_MoveType.
Proof. destruct m; cbn; tauto. Qed.

Lemma In_all_bool (b : bool) : In b all_bool.
Proof. destruct b; cbn; tauto. Qed.

Lemma check_distanceCost_all :
  forallb check_distanceCost (Zinterval (-3000) 3000) = true.
Proof. vm_cast_no_check (eq_refl true). Qed.

Lemma check_range_all :
  forallb check_range (Zinterval (-6000) 10200) = true.
Proof. vm_cast_no_check (eq_refl true). Qed.

Lemma check_sum_all :
  forallb check_sum (Zinterval (-3000) 3000) = true.
Proof. vm_cast_no_check (eq_refl true). Qed.

Lemma check_to_Z_all :
  forallb check_to_Z (Zinterval (-8000) 14000) = true.
Proof. vm_cast_no_check (eq_refl true). Qed.

Lemma F64_to_Z_of_Z (z : Z) :
  -8000 <= z <= 14000 -> F64.to_Z (F64.of_Z z) = Some z.
Proof.
  intros Hz.
  pose proof (forallb_Zinterval _ _ _ check_to_Z_all z Hz) as H.
  unfold check_to_Z in H.
  destruct (F64.to_Z (F64.of_Z z)) as [z' |]; [| discriminate].
  apply Z.eqb_eq in H. congruence.
Qed.

Lemma F64_sizeCost (v : MovingInput) :
  F64.sizeCost v = F64.of_Z (sizeCost_Z (moveType v) (homeSize v)).
Proof.
  destruct v as [d h m p s]. destruct h, m; vm_compute; reflexivity.
Qed.

Lemma F64_packingCost (v : MovingInput) :
  F64.packingCost v = F64.of_Z (packingCost_Z (homeSize v) (packingServices v)).
Proof.
  destruct v as [d h m p s]. destruct h, p; vm_compute; reflexivity.
Qed.

Lemma F64_storageCost (v : MovingInput) :
  F64.storageCost v = F64.of_Z (storageCost_Z (storageNeeded v)).
Proof.
  destruct v as [d h m p s]. destruct s; vm_compute; reflexivity.
Qed.

Lemma F64_serviceAddons (v : MovingInput) :
  F64.serviceAddons v =
  F64.of_Z (packingCost_Z (homeSize v) (packingServices v) +
            storageCost_Z (storageNeeded v)).
Proof.
  destruct v as [d h m p s]. destruct h, p, s; vm_compute; reflexivity.
Qed.

Lemma F64_distanceCost (v : MovingInput) :
  -3000 <= distance v <= 3000 ->
  F64.distanceCost v = F64.of_Z (distanceCost_Z (moveType v) (distance v)).
Proof.
  destruct v as [d h m p s]. cbn [distance moveType]. intros Hd.
  pose proof (forallb_Zinterval _ _ _ check_distanceCost_all d Hd) as H.
  unfold check_distanceCost in H. apply andb_true_iff in H.
  destruct H as [Hl Hg]. apply f64_is_eq in Hl. apply f64_is_eq in Hg.
  unfold F64.distanceCost, F64.baseCost_distanceCost.
  cbn [distance moveType]. destruct m; cbn [snd]; assumption.
Qed.

Lemma F64_totalEstimate (v : MovingInput) :
  -3000 <= distance v <= 3000 ->
  F64.totalEstimate v = F64.of_Z (totalEstimate_Z v).
Proof.
  intros Hd. unfold F64.totalEstimate.
  rewrite F64_sizeCost, (F64_distanceCost v Hd), F64_packingCost,
    F64_storageCost.
  destruct v as [d h m p s].
  cbn [distance homeSize moveType packingServices storageNeeded] in *.
  pose proof (forallb_Zinterval _ _ _ check_sum_all d Hd) as H.
  unfold check_sum in H.
  rewrite forallb_forall in H. specialize (H m (In_all_MoveType m)).
  cbv zeta in H.
  rewrite forallb_forall in H. specialize (H h (In_all_HomeSize h)).
  rewrite forallb_forall in H. specialize (H p (In_all_bool p)).
  rewrite forallb_forall in H. specialize (H s (In_all_bool s)).
  apply f64_is_eq in H. exact H.
Qed.

Lemma totalEstimate_Z_bounds (v : MovingInput) :
  -3000 <= distance v <= 3000 -> -5600 <= totalEstimate_Z v <= 10150.
Proof.
  intros Hd. unfold totalEstimate_Z.
  pose proof (sizeCost_Z_bounds (moveType v) (homeSize v)).
  pose proof (packingCost_Z_bounds (homeSize v) (packingServices v)).
  pose proof (storageCost_Z_bounds (storageNeeded v)).
  assert (-6000 <= distanceCost_Z (moveType v) (distance v) <= 6000).
  { destruct (moveType v); cbn [distanceCost_Z];
      [lia | div_lia]. }
  lia.
Qed.

Lemma F64_range (v : MovingInput) :
  -3000 <= distance v <= 3000 ->
  F64.lowEstimate v = F64.of_Z ((8 * totalEstimate_Z v + 5) / 10) /\
  F64.highEstimate v = F64.of_Z ((13 * totalEstimate_Z v + 5) / 10).
Proof.
  intros Hd. unfold F64.lowEstimate, F64.highEstimate.
  rewrite (F64_totalEstimate v Hd).
  pose proof (totalEstimate_Z_bounds v Hd) as Ht.
  pose proof (forallb_Zinterval _ _ _ check_range_all (totalEstimate_Z v)
                ltac:(lia)) as H.
  unfold check_range in H. apply andb_true_iff in H.
  destruct H as [Hl Hh]. split; apply f64_is_eq; assumption.
Qed.

(** For every distance from -3000 to 3000 and every choice of the other
    fields, the computation on binary64 floats displays exactly the
    breakdown of the exact model: all eight numbers are integers, equal to
    those of [estimate]. *)
Theorem f64_estimate_exact (values : MovingInput) :
  -3000 <= distance values <= 3000 ->
  F64.estimate values = Some (estimate values).
Proof.
  intros Hd. unfold F64.estimate.
  destruct (F64_range values Hd) as [Hlow Hhigh].
  rewrite F64_sizeCost, (F64_distanceCost values Hd), F64_packingCost,
    F64_storageCost, (F64_totalEstimate values Hd), Hlow, Hhigh,
    F64_serviceAddons.
  pose proof (totalEstimate_Z_bounds values Hd) as Ht.
  pose proof (sizeCost_Z_bounds (moveType values) (homeSize values)).
  pose proof (packingCost_Z_bounds (homeSize values) (packingServices values)).
  pose proof (storageCost_Z_bounds (storageNeeded values)).
  assert (-6000 <= distanceCost_Z (moveType values) (distance values) <= 6000).
  { destruct (moveType values); cbn [distanceCost_Z];
      [lia | div_lia]. }
  rewrite !F64_to_Z_of_Z by (try lia; div_lia).
  f_equal. unfold estimate.
  rewrite lowEstimate_closed, highEstimate_closed.
  unfold App.serviceAddons.
  rewrite totalEstimate_closed, sizeCost_table, distanceCost_closed,
    packingCost_table, storageCost_table.
  reflexivity.
Qed.

(** On floats too, a negative distance is not clamped: the breakdown at
    distance -100 for a local studio move shows a distance cost of -200. *)
Example f64_negative_distance :
  F64.estimate (mkMovingInput (-100) studio local false false) =
  Some (mkCostBreakdown 400 (-200) 0 0 200 160 260 0).
Proof. vm_compute. reflexivity. Qed.

(** ** Further properties of the pricing lines *)

(** Exact numbers: switching only storageNeeded on raises the total and the
    service add-ons by 250 and leaves the other three costs as they were. *)
Lemma exact_storage_toggle (values : MovingInput) :
  storageNeeded values = false ->
  let on := estimate (handleChange (set_storageNeeded true) values) in
  bd_total on = bd_total (estimate values) + 250 /\
  bd_serviceAddons on = bd_serviceAddons (estimate values) + 250 /\
  bd_baseCost on = bd_baseCost (estimate values) /\
  bd_distanceCost on = bd_distanceCost (estimate values) /\
  bd_packingCost on = bd_packingCost (estimate values).
Proof.
  destruct values as [d h m p s]. cbn [storageNeeded]. intros ->.
  cbv zeta.
  cbn [estimate bd_total bd_serviceAddons bd_baseCost bd_distanceCost
       bd_packingCost handleChange distance homeSize moveType
       packingServices storageNeeded].
  unfold App.serviceAddons, App.totalEstimate.
  rewrite !sizeCost_table, !packingCost_table, !storageCost_table,
    !distanceCost_closed.
  cbn [distance homeSize moveType packingServices storageNeeded storageCost_Z].
  repeat split; lia.
Qed.

(** For the same home size the rounded base cost of a long-distance move is
    exactly three times that of a local move: the roundings of lines 35, 39
    and 43 keep the ratio 1200 : 400. *)
Theorem long_distance_base_is_triple (values : MovingInput) :
  bd_baseCost (estimate (handleChange (set_moveType longDistance) values)) =
  3 * bd_baseCost (estimate (handleChange (set_moveType local) values)).
Proof.
  destruct values as [d h m p s].
  cbn [estimate bd_baseCost handleChange distance homeSize moveType
       packingServices storageNeeded].
  rewrite !sizeCost_table. cbn [homeSize moveType].
  destruct h; reflexivity.
Qed.

(** Exact numbers: [4 * k] more miles change the distance cost and the total
    by [8 * k] on a local move and by [3 * k] on a long-distance move; one
    more mile raises the total by 2 on a local move and by 0 or 1 on a
    long-distance move. *)
Lemma exact_mileage_steps (values : MovingInput) (k : Z) :
  let more n := estimate (handleChange (set_distance (distance values + n)) values) in
  let rate := match moveType values with local => 8 | longDistance => 3 end in
  bd_distanceCost (more (4 * k)) = bd_distanceCost (estimate values) + rate * k /\
  bd_total (more (4 * k)) = bd_total (estimate values) + rate * k /\
  match moveType values with
  | local => bd_total (more 1) = bd_total (estimate values) + 2
  | longDistance =>
      bd_total (estimate values) <= bd_total (more 1) <= bd_total (estimate values) + 1
  end.
Proof.
  destruct values as [d h m p s]. cbv zeta.
  cbn [estimate bd_total bd_distanceCost handleChange distance homeSize
       moveType packingServices storageNeeded].
  unfold App.totalEstimate.
  rewrite !sizeCost_table, !packingCost_table, !storageCost_table,
    !distanceCost_closed.
  cbn [distance homeSize moveType packingServices storageNeeded].
  destruct m; cbn [distanceCost_Z]; repeat split; div_lia.
Qed.


(** Exact numbers: the range spans half of the total, up to one unit of
    rounding. *)
Lemma exact_range_width (values : MovingInput) :
  -1 <= 2 * (bd_high (estimate values) - bd_low (estimate values))
        - bd_total (estimate values) <= 1.
Proof.
  cbn [estimate bd_low bd_high bd_total].
  rewrite lowEstimate_closed, highEstimate_closed. div_lia.
Qed.

(** Up to 640 miles a long-distance quote is never below the local quote
    for the same home and add-ons. *)
Theorem local_not_dearer (values : MovingInput) :
  distance values <= 640 ->
  bd_total (estimate (handleChange (set_moveType local) values)) <=
  bd_total (estimate (handleChange (set_moveType longDistance) values)).
Proof.
  destruct values as [d h m p s]. cbn [distance]. intros Hd.
  cbn [estimate bd_total handleChange distance homeSize moveType
       packingServices storageNeeded].
  unfold App.totalEstimate.
  rewrite !sizeCost_table, !packingCost_table, !storageCost_table,
    !distanceCost_closed.
  cbn [distance homeSize moveType packingServices storageNeeded distanceCost_Z].
  destruct h; cbn [sizeCost_Z]; div_lia.
Qed.

Lemma local_not_dearer_witness :
  bd_total (estimate (handleChange (set_moveType local)
              (mkMovingInput 640 studio local false false))) <=
  bd_total (estimate (handleChange (set_moveType longDistance)
              (mkMovingInput 640 studio local false false))).
Proof.
  apply local_not_dearer. cbn. lia.
Defined.

(** The bound is the exact one: at 641 miles a studio is cheaper to move as
    long distance. *)
Example long_distance_cheaper_at_641 :
  bd_total (estimate (mkMovingInput 641 studio longDistance false false)) <
  bd_total (estimate (mkMovingInput 641 studio local false false)).
Proof. vm_compute. reflexivity. Qed.

(** Exact numbers: for two inputs that agree on everything but the home
    size, a strictly smaller size multiplier gives a strictly smaller
    baseCost and total. *)
Lemma exact_homeSize_strict (v1 v2 : MovingInput) :
  same_but_homeSize v1 v2 ->
  (SIZE_MULTIPLIER (homeSize v1) < SIZE_MULTIPLIER (homeSize v2))%Q ->
  bd_baseCost (estimate v1) < bd_baseCost (estimate v2) /\
  bd_packingCost (estimate v1) <= bd_packingCost (estimate v2) /\
  bd_total (estimate v1) < bd_total (estimate v2).
Proof.
  intros (Hd & Hm & Hp & Hs) Hlt.
  cbn [estimate bd_baseCost bd_packingCost bd_total].
  unfold App.totalEstimate.
  rewrite !sizeCost_table, !packingCost_table, !storageCost_table,
    !distanceCost_closed, Hd, Hm, Hp, Hs.
  destruct (homeSize v1), (homeSize v2);
    try (exfalso; revert Hlt; unfold Qlt; cbn; lia);
    destruct (moveType v2), (packingServices v2);
    cbn [sizeCost_Z packingCost_Z]; lia.
Qed.

(** The service add-ons lie between 0 and 1030, and they are 0 exactly when
    neither packing nor storage is selected. *)
Theorem serviceAddons_values (values : MovingInput) :
  0 <= bd_serviceAddons (estimate values) <= 1030 /\
  (bd_serviceAddons (estimate values) = 0 <->
   packingServices values = false /\ storageNeeded values = false).
Proof.
  cbn [estimate bd_serviceAddons]. unfold App.serviceAddons.
  rewrite packingCost_table, storageCost_table.
  destruct (homeSize values), (packingServices values), (storageNeeded values);
    cbn [packingCost_Z storageCost_Z];
    (split; [lia | split; [intros H; try lia; split; reflexivity
                          | intros [H1 H2]; try discriminate; reflexivity]]).
Qed.

(** Changing only the distance leaves baseCost, packingCost, storageCost
    and serviceAddons as they were. *)
Theorem distance_frame (values : MovingInput) (d : Z) :
  let moved := estimate (handleChange (set_distance d) values) in
  bd_baseCost moved = bd_baseCost (estimate values) /\
  bd_packingCost moved = bd_packingCost (estimate values) /\
  bd_storageCost moved = bd_storageCost (estimate values) /\
  bd_serviceAddons moved = bd_serviceAddons (estimate values).
Proof.
  destruct values as [d0 h m p s]. cbv zeta.
  cbn [estimate bd_baseCost bd_packingCost bd_storageCost bd_serviceAddons].
  unfold App.serviceAddons.
  rewrite !sizeCost_table, !packingCost_table, !storageCost_table.
  repeat split; reflexivity.
Qed.

(** ** Decimal numerals *)

Lemma leading_digits_uint (u : Decimal.uint) (rest : jsstring) :
  leading_digits 10 (of_string (NilEmpty.string_of_uint u) ++ rest) =
  uint_values u ++ leading_digits 10 rest.
Proof.
  induction u; cbn; [reflexivity | f_equal; exact IHu ..].
Qed.

Lemma fold_uint_values_pos (u : Decimal.uint) (acc : positive) :
  fold_left (fun a v => a * 10 + v) (uint_values u) (Z.pos acc) =
  Z.pos (Pos.of_uint_acc u acc).
Proof.
  revert acc. induction u; intros acc; cbn [uint_values fold_left Pos.of_uint_acc];
    try reflexivity;
    match goal with
    | |- fold_left _ _ ?a = _ =>
        match goal with
        | |- _ = Z.pos (Pos.of_uint_acc _ ?p) =>
            replace a with (Z.pos p) by lia; apply IHu
        end
    end.
Qed.

Lemma digits_value_uint (u : Decimal.uint) :
  digits_value 10 (uint_values u) = Z.of_N (Pos.of_uint u).
Proof.
  unfold digits_value.
  induction u; cbn [uint_values fold_left Pos.of_uint]; try reflexivity;
    try (change (0 * 10 + 0) with 0; exact IHu);
    match goal with
    | |- fold_left _ _ ?a = Z.of_N (N.pos (Pos.of_uint_acc _ ?p)) =>
        change a with (Z.pos p); apply fold_uint_values_pos
    end.
Qed.

(** ** [parseInt] on what the field shows *)

Lemma leading_digits_nondigit (c : N) (r : jsstring) :
  is_decimal_digit c = false -> leading_digits 10 (c :: r) = [].
Proof.
  unfold is_decimal_digit. intros H. cbn [leading_digits]. unfold digit_value.
  rewrite H.
  destruct ((97 <=? c)%N && (c <=? 122)%N) eqn:E1.
  - apply andb_true_iff in E1. destruct E1 as [E1 _]. apply N.leb_le in E1.
    replace (Z.of_N c - 87 <? 10) with false; [reflexivity |].
    symmetry. apply Z.ltb_ge. lia.
  - destruct ((65 <=? c)%N && (c <=? 90)%N) eqn:E2; [| reflexivity].
    apply andb_true_iff in E2. destruct E2 as [E2 _]. apply N.leb_le in E2.
    replace (Z.of_N c - 55 <? 10) with false; [reflexivity |].
    symmetry. apply Z.ltb_ge. lia.
Qed.

Lemma leading_digits_end (rest : jsstring) :
  ends_numeral rest -> leading_digits 10 rest = [].
Proof.
  destruct rest as [| c r]; [reflexivity |].
  intros (H & _). apply leading_digits_nondigit. exact H.
Qed.

Lemma decimal_digit_not_space (c : N) :
  is_decimal_digit c = true -> is_white_space c = false.
Proof.
  unfold is_decimal_digit. intros H. apply andb_true_iff in H.
  destruct H as [H1 H2]. apply N.leb_le in H1. apply N.leb_le in H2.
  unfold is_white_space. cbn [existsb].
  repeat (rewrite (proj2 (N.eqb_neq c _)) by lia). reflexivity.
Qed.

(** A text that starts with a decimal digit and is not a hexadecimal
    literal is read in radix 10, from its first character. *)
Lemma parseInt_digit_start (c : N) (s : jsstring) :
  is_decimal_digit c = true ->
  match s with [] => True | x :: _ => x <> 120%N /\ x <> 88%N end ->
  parseInt (c :: s) =
  match leading_digits 10 (c :: s) with
  | [] => None
  | ds => Some (digits_value 10 ds)
  end.
Proof.
  intros Hc Hs. unfold parseInt. cbn [trim_start].
  rewrite (decimal_digit_not_space c Hc).
  unfold is_decimal_digit in Hc. apply andb_true_iff in Hc.
  destruct Hc as [H1 H2]. apply N.leb_le in H1. apply N.leb_le in H2.
  unfold strip_sign.
  rewrite (proj2 (N.eqb_neq c 45)), (proj2 (N.eqb_neq c 43)) by lia.
  assert (strip_prefix (c :: s) = (10, c :: s)) as ->.
  { unfold strip_prefix. destruct s as [| x r]; [reflexivity |].
    destruct Hs as [Hx HX].
    rewrite (proj2 (N.eqb_neq x 120) Hx), (proj2 (N.eqb_neq x 88) HX).
    rewrite andb_false_r. reflexivity. }
  destruct (leading_digits 10 (c :: s)); [reflexivity |].
  rewrite Z.mul_1_l. reflexivity.
Qed.

Lemma numeral_shape (u : Decimal.uint) (rest : jsstring) :
  u <> Decimal.Nil -> ends_numeral rest ->
  exists c s,
    of_string (NilEmpty.string_of_uint u) ++ rest = c :: s /\
    is_decimal_digit c = true /\
    match s with [] => True | x :: _ => x <> 120%N /\ x <> 88%N end.
Proof.
  intros Hu Hrest.
  assert (forall l : Decimal.uint,
            match of_string (NilEmpty.string_of_uint l) ++ rest with
            | [] => True
            | x :: _ => x <> 120%N /\ x <> 88%N
            end) as Htail.
  { intros l. destruct l; cbn;
      [destruct rest as [| x r]; [exact I | destruct Hrest as (_ & H1 & H2); auto]
      | split; discriminate ..]. }
  destruct u; [congruence | ..];
    (eexists; eexists; split; [cbn; reflexivity | split; [reflexivity | apply Htail]]).
Qed.

Lemma parseInt_uint (u : Decimal.uint) (rest : jsstring) :
  u <> Decimal.Nil -> ends_numeral rest ->
  parseInt (of_string (NilEmpty.string_of_uint u) ++ rest) =
  Some (Z.of_N (Pos.of_uint u)).
Proof.
  intros Hu Hrest.
  destruct (numeral_shape u rest Hu Hrest) as (c & s & Heq & Hc & Hs).
  rewrite Heq, (parseInt_digit_start c s Hc Hs), <- Heq.
  rewrite leading_digits_uint, (leading_digits_end rest Hrest), app_nil_r.
  rewrite <- digits_value_uint.
  destruct (uint_values u) eqn:E; [| reflexivity].
  destruct u; cbn in E; congruence.
Qed.

Lemma parseInt_minus_uint (u : Decimal.uint) (rest : jsstring) :
  u <> Decimal.Nil -> ends_numeral rest ->
  parseInt (45%N :: of_string (NilEmpty.string_of_uint u) ++ rest) =
  Some (- Z.of_N (Pos.of_uint u)).
Proof.
  intros Hu Hrest.
  destruct (numeral_shape u rest Hu Hrest) as (c & s & Heq & Hc & Hs).
  pose proof (parseInt_uint u rest Hu Hrest) as Hplus.
  rewrite Heq in Hplus |- *.
  unfold parseInt in *. cbn [trim_start] in *.
  rewrite (decimal_digit_not_space c Hc) in Hplus.
  change (is_white_space 45) with false. cbv iota.
  change (strip_sign (45%N :: c :: s)) with (-1, c :: s).
  unfold is_decimal_digit in Hc. apply andb_true_iff in Hc.
  destruct Hc as [H1 H2]. apply N.leb_le in H1. apply N.leb_le in H2.
  unfold strip_sign in Hplus.
  rewrite (proj2 (N.eqb_neq c 45)), (proj2 (N.eqb_neq c 43)) in Hplus by lia.
  destruct (strip_prefix (c :: s)) as [R s'].
  destruct (leading_digits R s'); [discriminate |].
  injection Hplus as Hplus. f_equal.
  destruct (digits_value R (z :: l)); lia.
Qed.

Lemma Pos_to_uint_nonnil (p : positive) : Pos.to_uint p <> Decimal.Nil.
Proof.
  intros H. pose proof (DecimalPos.Unsigned.of_to p) as E.
  rewrite H in E. discriminate.
Qed.

(** [parseInt] reads back the decimal text of an integer, whatever follows
    the numeral. *)
Theorem parseInt_Number_toString (n : Z) (rest : jsstring) :
  Z.abs n < 2 ^ 53 ->
  ends_numeral rest ->
  parseInt (of_string (Number_toString n) ++ rest) = Some n.
Proof.
  intros _ Hrest. unfold Number_toString. destruct n as [| p | p].
  - change (of_string (NilZero.string_of_int (Z.to_int 0)))
      with (of_string (NilEmpty.string_of_uint (Decimal.D0 Decimal.Nil))).
    rewrite parseInt_uint by (assumption || discriminate). reflexivity.
  - pose proof (Pos_to_uint_nonnil p) as Hp.
    cbn [Z.to_int NilZero.string_of_int]. unfold NilZero.string_of_uint.
    destruct (Pos.to_uint p) eqn:E; try congruence;
      rewrite <- E, parseInt_uint, DecimalPos.Unsigned.of_to
        by (assumption || congruence); reflexivity.
  - pose proof (Pos_to_uint_nonnil p) as Hp.
    cbn [Z.to_int NilZero.string_of_int]. unfold NilZero.string_of_uint.
    destruct (Pos.to_uint p) eqn:E; try congruence;
      rewrite <- E;
      change (of_string (String "-" ?s)) with (45%N :: of_string s);
      cbn [of_string list_ascii_of_string map app];
      change (N_of_ascii "-") with 45%N;
      change (map N_of_ascii (list_ascii_of_string ?s)) with (of_string s);
      rewrite parseInt_minus_uint, DecimalPos.Unsigned.of_to
        by (assumption || congruence); reflexivity.
Qed.

(** What the distance field shows, read back by its own handler, is the
    distance of the state: re-entering the shown text changes nothing.
    At distance 0 the field is empty and the empty text gives 0 again. *)
Theorem distance_field_round_trip (values : MovingInput) :
  Z.abs (distance values) < 2 ^ 53 ->
  distance_onChange (of_string (distance_value values)) values = values.
Proof.
  intros Hd. unfold distance_onChange, distance_value.
  destruct values as [d h m p s]. cbn [distance] in *.
  destruct (d =? 0) eqn:E.
  - apply Z.eqb_eq in E. subst d. reflexivity.
  - pose proof (parseInt_Number_toString d [] Hd I) as H.
    rewrite app_nil_r in H. rewrite H. reflexivity.
Qed.

Lemma distance_field_round_trip_witness :
  distance_onChange
    (of_string (distance_value (mkMovingInput 120 br1 local true false)))
    (mkMovingInput 120 br1 local true false) =
  mkMovingInput 120 br1 local true false.
Proof.
  apply distance_field_round_trip. cbn. lia.
Defined.

(** Only the integer in front of the text counts: an integer followed by
    anything that does not start with a digit, [x] or [X] (a decimal
    fraction, an exponent, a unit) is stored as that integer. *)
Theorem distance_field_truncates (n : Z) (rest : jsstring) (prev : MovingInput) :
  Z.abs n < 2 ^ 53 ->
  ends_numeral rest ->
  distance (distance_onChange (of_string (Number_toString n) ++ rest) prev) = n.
Proof.
  intros Hn Hrest. unfold distance_onChange.
  rewrite (parseInt_Number_toString n rest Hn Hrest).
  destruct prev; reflexivity.
Qed.

Lemma distance_field_truncates_witness :
  distance (distance_onChange
              (of_string (Number_toString 12) ++ of_string ".75 miles")
              (mkMovingInput 50 br2 local false false)) = 12.
Proof.
  apply distance_field_truncates.
  - cbn. lia.
  - cbn. repeat split; discriminate.
Defined.

(** Text without a digit in front (after white space and one sign), and so
    the empty text, sets the distance to 0 and leaves the other fields. *)
Theorem distance_field_not_a_number (text : jsstring) (prev : MovingInput) :
  no_leading_digit text ->
  distance_onChange text prev = handleChange (set_distance 0) prev.
Proof.
  unfold no_leading_digit, distance_onChange, parseInt. intros H.
  destruct (strip_sign (trim_start text)) as [sign s]. cbn [snd] in H.
  destruct s as [| c r]; [reflexivity |].
  assert (strip_prefix (c :: r) = (10, c :: r)) as ->.
  { unfold strip_prefix. destruct r as [| x r]; [reflexivity |].
    destruct (c =? 48)%N eqn:E; [| reflexivity].
    apply N.eqb_eq in E. subst c. discriminate. }
  rewrite (leading_digits_nondigit c r H). reflexivity.
Qed.

Lemma distance_field_not_a_number_witness :
  distance_onChange (of_string " -.5") (mkMovingInput 50 br2 local false false) =
  handleChange (set_distance 0) (mkMovingInput 50 br2 local false false).
Proof.
  apply distance_field_not_a_number. reflexivity.
Defined.

(** ** The formatter and the breakdown rows *)

Lemma commas_filter (l : list ascii) (k : nat) :
  forallb not_comma l = true -> filter not_comma (commas k l) = l.
Proof.
  revert k. induction l as [| x r IH]; intros k H; [reflexivity |].
  cbn [forallb] in H. apply andb_true_iff in H. destruct H as [Hx Hr].
  destruct k; cbn [commas filter];
    try change (not_comma ",") with false; cbv iota;
    rewrite Hx, IH by assumption; reflexivity.
Qed.

Lemma uint_not_comma (u : Decimal.uint) :
  forallb not_comma (list_ascii_of_string (NilEmpty.string_of_uint u)) = true.
Proof. induction u; cbn; try reflexivity; exact IHu. Qed.

Lemma NilZero_not_comma (u : Decimal.uint) :
  forallb not_comma (list_ascii_of_string (NilZero.string_of_uint u)) = true.
Proof.
  destruct u; try apply (uint_not_comma (_ _)). reflexivity.
Qed.

Lemma forallb_rev {A : Type} (f : A -> bool) (l : list A) :
  forallb f l = true -> forallb f (rev l) = true.
Proof.
  rewrite !forallb_forall. intros H x Hx. apply H. apply in_rev. exact Hx.
Qed.

(** The digits can be read off the grouped text. *)
Lemma grouped_digits (u : Decimal.uint) :
  let digits := list_ascii_of_string (NilZero.string_of_uint u) in
  rev (filter not_comma (commas 3 (rev digits))) = digits.
Proof.
  cbv zeta. rewrite commas_filter.
  - apply rev_involutive.
  - apply forallb_rev. apply NilZero_not_comma.
Qed.

Lemma N_to_uint_nonnil (n : N) : N.to_uint n <> Decimal.Nil.
Proof.
  destruct n; [discriminate | apply Pos_to_uint_nonnil].
Qed.

Lemma fmt_digits_inj (a b : N) :
  string_of_list_ascii
    (rev (commas 3 (rev (list_ascii_of_string (NilZero.string_of_uint (N.to_uint a)))))) =
  string_of_list_ascii
    (rev (commas 3 (rev (list_ascii_of_string (NilZero.string_of_uint (N.to_uint b)))))) ->
  a = b.
Proof.
  intros H.
  apply (f_equal list_ascii_of_string) in H.
  rewrite !list_ascii_of_string_of_list_ascii in H.
  apply (f_equal (@rev ascii)) in H. rewrite !rev_involutive in H.
  apply (f_equal (fun l => rev (filter not_comma l))) in H.
  rewrite !grouped_digits in H.
  apply (f_equal string_of_list_ascii) in H.
  rewrite !string_of_list_ascii_of_string in H.
  apply (f_equal NilZero.uint_of_string) in H.
  rewrite !NilZero.usu in H by apply N_to_uint_nonnil.
  injection H as H.
  apply (f_equal N.of_uint) in H.
  rewrite !DecimalN.Unsigned.of_to in H. exact H.
Qed.

Lemma fmt_eq_inv (n m : Z) : fmt n = fmt m -> n = m.
Proof.
  unfold fmt. intros H.
  destruct (n <? 0) eqn:En, (m <? 0) eqn:Em; cbn in H;
    try discriminate H;
    injection H as H; try (injection H as H);
    apply fmt_digits_inj in H;
    apply Z.ltb_lt in En || apply Z.ltb_ge in En;
    apply Z.ltb_lt in Em || apply Z.ltb_ge in Em; lia.
Qed.

(** Different amounts are never shown as the same text. *)
Theorem fmt_injective (n m : Z) : n <> m -> fmt n <> fmt m.
Proof.
  intros Hne H. apply Hne. apply fmt_eq_inv. exact H.
Qed.

Lemma fmt_injective_witness :
  4900 <> 49000 /\ fmt 4900 <> fmt 49000.
Proof.
  split; [lia |]. apply fmt_injective. lia.
Defined.

(** Every row of the breakdown table shows the formatted cost of its line,
    the packing and storage rows included: their special case for a cost
    that is not positive shows what the formatter gives as well.  Only the
    last row is marked as the total. *)
Theorem breakdownData_rows (values : MovingInput) :
  map value (breakdownData values) =
    map fmt [bd_baseCost (estimate values); bd_distanceCost (estimate values);
             bd_packingCost (estimate values); bd_storageCost (estimate values);
             bd_total (estimate values)] /\
  map isTotal (breakdownData values) = [false; false; false; false; true].
Proof.
  split; [| reflexivity].
  unfold breakdownData. cbn [map value estimate bd_baseCost bd_distanceCost
    bd_packingCost bd_storageCost bd_total].
  pose proof (packingCost_nonneg values) as Hp.
  pose proof (storageCost_nonneg values) as Hs.
  destruct (0 <? App.packingCost values) eqn:Ep;
    destruct (0 <? App.storageCost values) eqn:Es;
    try (apply Z.ltb_ge in Ep; replace (App.packingCost values) with 0 by lia);
    try (apply Z.ltb_ge in Es; replace (App.storageCost values) with 0 by lia);
    reflexivity.
Qed.

(** ** Form updates *)

(** Of two updates of the same field only the later one counts. *)
Theorem handleChange_last_wins (a b : FieldValue) (prev : MovingInput) :
  field_of a = field_of b ->
  handleChange b (handleChange a prev) = handleChange b prev.
Proof.
  destruct a, b; cbn [field_of]; intros H; try discriminate H; reflexivity.
Qed.

Lemma handleChange_last_wins_witness :
  handleChange (set_distance 70)
    (handleChange (set_distance 60) (mkMovingInput 50 br2 local false false)) =
  handleChange (set_distance 70) (mkMovingInput 50 br2 local false false).
Proof.
  apply handleChange_last_wins. reflexivity.
Defined.

(** Updates of different fields can be made in either order. *)
Theorem handleChange_commute (a b : FieldValue) (prev : MovingInput) :
  field_of a <> field_of b ->
  handleChange a (handleChange b prev) = handleChange b (handleChange a prev).
Proof.
  destruct a, b; cbn [field_of]; intros H; try reflexivity;
    exfalso; apply H; reflexivity.
Qed.

Lemma handleChange_commute_witness :
  handleChange (set_distance 70)
    (handleChange (set_homeSize br3) (mkMovingInput 50 br2 local false false)) =
  handleChange (set_homeSize br3)
    (handleChange (set_distance 70) (mkMovingInput 50 br2 local false false)).
Proof.
  apply handleChange_commute. discriminate.
Defined.

(** ** Binary64 agreement at a form state *)

Lemma f64_estimate_exact_witness :
  F64.estimate (mkMovingInput 1000 br3 longDistance true true) =
  Some (estimate (mkMovingInput 1000 br3 longDistance true true)).
Proof.
  apply f64_estimate_exact. cbn. lia.
Defined.

(** ** The code's arithmetic within the checked range

    The statements below are about [F64.estimate], the binary64 computation
    of lines 27-51.  Each holds for distances from -3000 to 3000, which
    contains the range [1, 3000] of valid inputs, and each is followed or
    preceded by a large distance at which the same statement fails because
    a binary64 product or sum is rounded. *)

Lemma estimate_closed (v : MovingInput) : estimate v = breakdown_Z v.
Proof.
  unfold estimate, breakdown_Z. cbv zeta.
  rewrite lowEstimate_closed, highEstimate_closed.
  unfold App.serviceAddons.
  rewrite totalEstimate_closed, sizeCost_table, distanceCost_closed,
    packingCost_table, storageCost_table.
  reflexivity.
Qed.

Lemma F64_estimate_closed (v : MovingInput) :
  -3000 <= distance v <= 3000 -> F64.estimate v = Some (breakdown_Z v).
Proof.
  intros Hd. unfold F64.estimate.
  destruct (F64_range v Hd) as [Hlow Hhigh].
  rewrite F64_sizeCost, (F64_distanceCost v Hd), F64_packingCost,
    F64_storageCost, (F64_totalEstimate v Hd), Hlow, Hhigh,
    F64_serviceAddons.
  pose proof (totalEstimate_Z_bounds v Hd) as Ht.
  pose proof (sizeCost_Z_bounds (moveType v) (homeSize v)).
  pose proof (packingCost_Z_bounds (homeSize v) (packingServices v)).
  pose proof (storageCost_Z_bounds (storageNeeded v)).
  assert (-6000 <= distanceCost_Z (moveType v) (distance v) <= 6000).
  { destruct (moveType v); cbn [distanceCost_Z]; [lia | div_lia]. }
  rewrite !F64_to_Z_of_Z by (try lia; div_lia).
  reflexivity.
Qed.

(** Within the range, the breakdown of the binary64 computation is the one
    of the exact computation. *)
Ltac f64_in_range H :=
  rewrite estimate_closed; apply F64_estimate_closed; cbn [distance handleChange];
  first [exact H | lia].

(** C1, as the specification states it, fails.  At a long-distance move of
    6004799503160662 miles the product [distance * 0.75] is
    4503599627370496.5, which is no binary64 number: line 40 rounds the
    product to 4503599627370496 before [Math.round], while the reference
    algorithm rounds the exact product to 4503599627370497. *)
Lemma reference_differs_at_large_distance :
  let v := mkMovingInput 6004799503160662 studio longDistance false false in
  F64.estimate v =
    Some (mkCostBreakdown 1200 4503599627370496 0 0 4503599627371696
            3602879701897357 5854679515583205 0) /\
  Reference.estimate v =
    mkCostBreakdown 1200 4503599627370497 0 0 4503599627371697
      3602879701897358 5854679515583206 0 /\
  F64.estimate v <> Some (Reference.estimate v).
Proof.
  cbv zeta.
  assert (F64.estimate
            (mkMovingInput 6004799503160662 studio longDistance false false) =
          Some (mkCostBreakdown 1200 4503599627370496 0 0 4503599627371696
                  3602879701897357 5854679515583205 0)) as HF
    by (vm_compute; reflexivity).
  assert (Reference.estimate
            (mkMovingInput 6004799503160662 studio longDistance false false) =
          mkCostBreakdown 1200 4503599627370497 0 0 4503599627371697
            3602879701897358 5854679515583206 0) as HR
    by (vm_compute; reflexivity).
  split; [exact HF | split; [exact HR |]].
  rewrite HF, HR. intros H. discriminate H.
Qed.

(** C1, amended.  For every input whose distance is an integer from -3000 to
    3000 (the valid inputs, distance 1 to 3000, are among them), the
    estimator computes exactly the reference algorithm: the multiplier
    lookup, the base and distance cost of the move type, the packing and
    storage add-ons, their sum, the low and high ends of the range and the
    service add-ons, each rounding applied to its intermediate value before
    the summation. *)
Theorem estimate_is_reference_in_range (values : MovingInput) :
  -3000 <= distance values <= 3000 ->
  F64.estimate values = Some (Reference.estimate values).
Proof.
  intros Hd. rewrite <- exact_is_reference. f64_in_range Hd.
Qed.

Lemma estimate_is_reference_in_range_witness :
  F64.estimate (mkMovingInput 50 br2 local false false) =
  Some (Reference.estimate (mkMovingInput 50 br2 local false false)).
Proof.
  apply estimate_is_reference_in_range. cbn. lia.
Defined.

(** C3, as the specification states it, fails.  At a local two-bedroom move
    of 9007199254740991 miles the distance cost is 18014398509481982 and the
    base cost 760; their sum 18014398509482742 is no binary64 number, and
    line 47 yields 18014398509482744. *)
Lemma total_differs_from_sum_at_large_distance :
  F64.estimate (mkMovingInput 9007199254740991 br2 local false false) =
    Some (mkCostBreakdown 760 18014398509481982 0 0 18014398509482744
            14411518807586196 23418718062327568 0) /\
  18014398509482744 <> 760 + 18014398509481982 + 0 + 0.
Proof.
  split; [vm_compute; reflexivity | lia].
Qed.

(** C3, amended.  For every input whose distance is an integer from -3000 to
    3000, the computed total equals
    baseCost + distanceCost + packingCost + storageCost. *)
Theorem total_is_sum_in_range (values : MovingInput) :
  -3000 <= distance values <= 3000 ->
  exists b,
    F64.estimate values = Some b /\
    bd_total b =
      bd_baseCost b + bd_distanceCost b + bd_packingCost b + bd_storageCost b.
Proof.
  intros Hd. exists (estimate values). split.
  - f64_in_range Hd.
  - apply exact_total_is_sum.
Qed.

Lemma total_is_sum_in_range_witness :
  exists b,
    F64.estimate (mkMovingInput 1000 br3 longDistance true true) = Some b /\
    bd_total b =
      bd_baseCost b + bd_distanceCost b + bd_packingCost b + bd_storageCost b.
Proof.
  apply total_is_sum_in_range. cbn. lia.
Defined.

(** C6, as the specification states it, fails.  At a local two-bedroom move
    of 9007199254740991 miles, switching packing on moves the total from
    18014398509482744 to 18014398509483312, a rise of 568, while
    round(300 * 1.9) is 570. *)
Lemma packing_toggle_differs_at_large_distance :
  let v := mkMovingInput 9007199254740991 br2 local false false in
  option_map bd_total (F64.estimate v) = Some 18014398509482744 /\
  option_map bd_total (F64.estimate (handleChange (set_packingServices true) v)) =
    Some 18014398509483312 /\
  Reference.round (300 * SIZE_MULTIPLIER (homeSize v)) = 570 /\
  18014398509483312 <> 18014398509482744 + 570.
Proof.
  cbv zeta. repeat split; try (vm_compute; reflexivity). lia.
Qed.

(** C6, amended.  For every input with packingServices = false whose
    distance is an integer from -3000 to 3000, changing only
    packingServices to true increases the total by exactly
    round(300 * sizeMultiplier[homeSize]), a positive amount. *)
Theorem packing_toggle_adds_in_range (values : MovingInput) :
  packingServices values = false ->
  -3000 <= distance values <= 3000 ->
  exists b b',
    F64.estimate values = Some b /\
    F64.estimate (handleChange (set_packingServices true) values) = Some b' /\
    bd_total b' =
      bd_total b + Reference.round (300 * SIZE_MULTIPLIER (homeSize values)) /\
    0 < Reference.round (300 * SIZE_MULTIPLIER (homeSize values)).
Proof.
  intros Hp Hd.
  exists (estimate values),
    (estimate (handleChange (set_packingServices true) values)).
  split; [f64_in_range Hd | split; [f64_in_range Hd |]].
  apply exact_packing_toggle. exact Hp.
Qed.

Lemma packing_toggle_adds_in_range_witness :
  let v := mkMovingInput 50 br2 local false false in
  exists b b',
    F64.estimate v = Some b /\
    F64.estimate (handleChange (set_packingServices true) v) = Some b' /\
    bd_total b' =
      bd_total b + Reference.round (300 * SIZE_MULTIPLIER (homeSize v)) /\
    0 < Reference.round (300 * SIZE_MULTIPLIER (homeSize v)).
Proof.
  intros v. apply (packing_toggle_adds_in_range v); [reflexivity | cbn; lia].
Defined.

(** C8, as the specification states it, fails in its formula.  At a
    long-distance move of -6004799503160666 miles the product
    [distance * 0.75] is -4503599627370499.5, which is no binary64 number:
    line 40 gives -4503599627370500, while round(distance * 0.75) on the
    exact product is -4503599627370499.  The cost is negative all the
    same. *)
Lemma negative_distance_formula_differs_at_large_distance :
  let v := mkMovingInput (-6004799503160666) studio longDistance false false in
  option_map bd_distanceCost (F64.estimate v) = Some (-4503599627370500) /\
  Reference.round (inject_Z (distance v) * 0.75) = -4503599627370499.
Proof.
  cbv zeta. split; vm_compute; reflexivity.
Qed.

(** C8, amended.  For every input with a negative distance the distanceCost
    is negative, with no clamping to zero; for a distance from -3000 to -1
    it is exactly round(distance * 2) on a local move and
    round(distance * 0.75) on a long-distance move. *)
Theorem negative_distance_cost (values : MovingInput) :
  distance values < 0 ->
  bd_distanceCost (estimate values) < 0 /\
  (-3000 <= distance values ->
   exists b,
     F64.estimate values = Some b /\
     bd_distanceCost b =
       match moveType values with
       | local => Reference.round (inject_Z (distance values) * 2)
       | longDistance => Reference.round (inject_Z (distance values) * 0.75)
       end /\
     bd_distanceCost b < 0).
Proof.
  intros Hd. destruct (exact_negative_distance values Hd) as [Heq Hneg].
  split; [exact Hneg |]. intros Hlo.
  exists (estimate values). split; [| split; assumption].
  assert (-3000 <= distance values <= 3000) as Hr by lia.
  f64_in_range Hr.
Qed.

Lemma negative_distance_cost_witness :
  let v := mkMovingInput (-1) studio longDistance false false in
  bd_distanceCost (estimate v) < 0 /\
  exists b,
    F64.estimate v = Some b /\
    bd_distanceCost b = Reference.round (inject_Z (distance v) * 0.75) /\
    bd_distanceCost b < 0.
Proof.
  intros v.
  assert (distance v < 0) as Hd by (cbn; lia).
  destruct (negative_distance_cost v Hd) as [Hneg Hin].
  split; [exact Hneg |]. apply Hin. cbn. lia.
Defined.

(** Within the range, switching only storageNeeded on raises the total and
    the service add-ons by exactly 250 and leaves the other three costs as
    they were. *)
Theorem storage_toggle_adds_in_range (values : MovingInput) :
  storageNeeded values = false ->
  -3000 <= distance values <= 3000 ->
  exists b b',
    F64.estimate values = Some b /\
    F64.estimate (handleChange (set_storageNeeded true) values) = Some b' /\
    bd_total b' = bd_total b + 250 /\
    bd_serviceAddons b' = bd_serviceAddons b + 250 /\
    bd_baseCost b' = bd_baseCost b /\
    bd_distanceCost b' = bd_distanceCost b /\
    bd_packingCost b' = bd_packingCost b.
Proof.
  intros Hs Hd.
  exists (estimate values),
    (estimate (handleChange (set_storageNeeded true) values)).
  split; [f64_in_range Hd | split; [f64_in_range Hd |]].
  apply (exact_storage_toggle values Hs).
Qed.

Lemma storage_toggle_adds_in_range_witness :
  let v := mkMovingInput 50 br2 local false false in
  exists b b',
    F64.estimate v = Some b /\
    F64.estimate (handleChange (set_storageNeeded true) v) = Some b' /\
    bd_total b' = bd_total b + 250 /\
    bd_serviceAddons b' = bd_serviceAddons b + 250 /\
    bd_baseCost b' = bd_baseCost b /\
    bd_distanceCost b' = bd_distanceCost b /\
    bd_packingCost b' = bd_packingCost b.
Proof.
  intros v. apply (storage_toggle_adds_in_range v); [reflexivity | cbn; lia].
Defined.

(** Beyond the range the sum of line 47 is rounded: at 9007199254740991
    miles (local, two bedrooms) storage raises the total by 248. *)
Example storage_toggle_at_large_distance :
  option_map bd_total
    (F64.estimate (mkMovingInput 9007199254740991 br2 local false false)) =
    Some 18014398509482744 /\
  option_map bd_total
    (F64.estimate (mkMovingInput 9007199254740991 br2 local false true)) =
    Some (18014398509482744 + 248).
Proof. split; vm_compute; reflexivity. Qed.

(** Within the range, [4 * k] more miles change the distance cost and the
    total by exactly [8 * k] on a local move and [3 * k] on a long-distance
    move; one more mile raises the total by exactly 2 on a local move and by
    0 or 1 on a long-distance move. *)
Theorem mileage_steps_in_range (values : MovingInput) (k : Z) :
  -3000 <= distance values <= 3000 ->
  -3000 <= distance values + 4 * k <= 3000 ->
  distance values + 1 <= 3000 ->
  let more n := handleChange (set_distance (distance values + n)) values in
  let rate := match moveType values with local => 8 | longDistance => 3 end in
  exists b b4 b1,
    F64.estimate values = Some b /\
    F64.estimate (more (4 * k)) = Some b4 /\
    F64.estimate (more 1) = Some b1 /\
    bd_distanceCost b4 = bd_distanceCost b + rate * k /\
    bd_total b4 = bd_total b + rate * k /\
    match moveType values with
    | local => bd_total b1 = bd_total b + 2
    | longDistance => bd_total b <= bd_total b1 <= bd_total b + 1
    end.
Proof.
  intros Hd H4 H1. cbv zeta.
  exists (estimate values),
    (estimate (handleChange (set_distance (distance values + 4 * k)) values)),
    (estimate (handleChange (set_distance (distance values + 1)) values)).
  split; [f64_in_range Hd | split; [| split]].
  - rewrite estimate_closed. apply F64_estimate_closed.
    destruct values; cbn [distance handleChange] in *. lia.
  - rewrite estimate_closed. apply F64_estimate_closed.
    destruct values; cbn [distance handleChange] in *. lia.
  - apply (exact_mileage_steps values k).
Qed.

Lemma mileage_steps_in_range_witness :
  let v := mkMovingInput 100 br1 longDistance false true in
  exists b b4 b1,
    F64.estimate v = Some b /\
    F64.estimate (handleChange (set_distance (distance v + 4 * 5)) v) = Some b4 /\
    F64.estimate (handleChange (set_distance (distance v + 1)) v) = Some b1 /\
    bd_distanceCost b4 = bd_distanceCost b + 3 * 5 /\
    bd_total b4 = bd_total b + 3 * 5 /\
    bd_total b <= bd_total b1 <= bd_total b + 1.
Proof.
  intros v. apply (mileage_steps_in_range v 5); cbn; lia.
Defined.

(** Beyond the range a mile can be lost in the rounding of line 47: for a
    local studio move the totals at 9007199254740991 and at
    9007199254740992 miles are the same. *)
Example mileage_step_at_large_distance :
  option_map bd_total
    (F64.estimate (mkMovingInput 9007199254740991 studio local false false)) =
    Some 18014398509482384 /\
  option_map bd_total
    (F64.estimate (mkMovingInput 9007199254740992 studio local false false)) =
    Some 18014398509482384.
Proof. split; vm_compute; reflexivity. Qed.

(** Within the range, the range of the estimate spans half of the total, up
    to one unit of rounding. *)
Theorem range_width_in_range (values : MovingInput) :
  -3000 <= distance values <= 3000 ->
  exists b,
    F64.estimate values = Some b /\
    -1 <= 2 * (bd_high b - bd_low b) - bd_total b <= 1.
Proof.
  intros Hd. exists (estimate values).
  split; [f64_in_range Hd | apply exact_range_width].
Qed.

Lemma range_width_in_range_witness :
  exists b,
    F64.estimate (mkMovingInput 1000 br3 longDistance true true) = Some b /\
    -1 <= 2 * (bd_high b - bd_low b) - bd_total b <= 1.
Proof.
  apply range_width_in_range. cbn. lia.
Defined.

(** Beyond the range the products of lines 48 and 49 are rounded: at
    9007199254740989 miles (local, two bedrooms, both add-ons) twice the
    width exceeds the total by 4. *)
Example range_width_at_large_distance :
  option_map (fun b => 2 * (bd_high b - bd_low b) - bd_total b)
    (F64.estimate (mkMovingInput 9007199254740989 br2 local true true)) =
  Some 4.
Proof. vm_compute. reflexivity. Qed.

(** Within the range, for two inputs that agree on everything but the home
    size, a strictly smaller size multiplier gives a strictly smaller
    baseCost and total, and a packingCost that is not larger: the roundings
    never merge two home sizes. *)
Theorem homeSize_strictly_monotone_in_range (v1 v2 : MovingInput) :
  same_but_homeSize v1 v2 ->
  -3000 <= distance v1 <= 3000 ->
  (SIZE_MULTIPLIER (homeSize v1) < SIZE_MULTIPLIER (homeSize v2))%Q ->
  exists b1 b2,
    F64.estimate v1 = Some b1 /\
    F64.estimate v2 = Some b2 /\
    bd_baseCost b1 < bd_baseCost b2 /\
    bd_packingCost b1 <= bd_packingCost b2 /\
    bd_total b1 < bd_total b2.
Proof.
  intros Hsame Hd Hlt. exists (estimate v1), (estimate v2).
  split; [f64_in_range Hd | split].
  - destruct Hsame as (Heq & _). rewrite Heq in Hd. f64_in_range Hd.
  - apply (exact_homeSize_strict v1 v2 Hsame Hlt).
Qed.

Lemma homeSize_strictly_monotone_in_range_witness :
  exists b1 b2,
    F64.estimate (mkMovingInput 200 br1 local true true) = Some b1 /\
    F64.estimate (mkMovingInput 200 br2 local true true) = Some b2 /\
    bd_baseCost b1 < bd_baseCost b2 /\
    bd_packingCost b1 <= bd_packingCost b2 /\
    bd_total b1 < bd_total b2.
Proof.
  apply homeSize_strictly_monotone_in_range.
  - unfold same_but_homeSize. cbn. repeat split; reflexivity.
  - cbn. lia.
  - cbn. unfold Qlt. cbn. lia.
Defined.

(** Beyond the range the sum of line 47 can absorb the base cost: at
    4611686018427387904 miles the local totals of a studio and of a two
    bedroom home are the same. *)
Example homeSize_merged_at_large_distance :
  option_map bd_total
    (F64.estimate (mkMovingInput 4611686018427387904 studio local false false)) =
    Some 9223372036854775808 /\
  option_map bd_total
    (F64.estimate (mkMovingInput 4611686018427387904 br2 local false false)) =
    Some 9223372036854775808.
Proof. split; vm_compute; reflexivity. Qed.
